(** * Trade journal: profit/loss, R-multiple, dashboard metrics and ownership

    A shallow embedding of [app/models.py] (the [Trade] model with its
    [pl] and [r_multiple] methods, the [User] model), of the forms of
    [app/forms.py] and of the views of [app/routes.py]: the dashboard
    metrics computed by [index], the views [new_trade], [edit_trade] and
    [delete_trade] that write to the table of trades, and [register],
    [login] and [logout].

    Conventions of the embedding.
    - A column of type [db.Float] is read in exact arithmetic, as a
      rational [Q]; a nullable column is an [option].  Rounding, infinities
      and NaN of binary64 are outside the model.  Two rationals are the
      same number when they are [==] ([Qeq]).
    - A Python [str] is a [string]; [str.lower] is modelled on the ASCII
      letters, which are the only characters whose lower-case form contains
      a letter of ['long'].  The length limits of the text columns are not
      modelled.
    - The table of trades is a finite map from primary key to row, and so
      is the table of users.
    - A form is its parsed field data; [validate] runs the validators that
      [app/forms.py] attaches to the fields.  The request token that
      Flask-WTF checks besides is taken to be in order.
    - The password hash functions of Werkzeug are parameters of the views
      that use them. *)

From Stdlib Require Import QArith Qfield String Ascii List Permutation Lia.
From Stdlib Require Import Sorted.
From stdpp Require Import gmap strings.

Local Open Scope Q_scope.

(** ** Python values *)

Module Py.

(** Truth value of a [float]: every number but zero is true. *)
Definition truthy (x : Q) : bool := negb (Qeq_bool x 0).

(** Truth value of an optional [float]: [None] and zero are false. *)
Definition truthy_opt (o : option Q) : bool :=
  match o with
  | None => false
  | Some x => truthy x
  end.

(** [x or 0] for [x : float | None]. *)
Definition or_zero (o : option Q) : Q :=
  match o with
  | None => 0
  | Some x => if truthy x then x else 0
  end.

(** [a < b] and [a > b] on numbers. *)
Definition lt (a b : Q) : bool := negb (Qle_bool b a).
Definition gt (a b : Q) : bool := lt b a.

(** Exceptions that the modelled code could raise. *)
Inductive exn : Type :=
| ZeroDivisionError.

(** Outcome of an expression that may raise. *)
Inductive result (A : Type) : Type :=
| Return (a : A)
| Raise (e : exn).
Arguments Return {A} a.
Arguments Raise {A} e.

(** [a / b] on floats: raises on a zero divisor. *)
Definition truediv (a b : Q) : result Q :=
  if Qeq_bool b 0 then Raise ZeroDivisionError else Return (a / b).

(** [str.lower], on ASCII letters. *)
Definition is_upper (c : ascii) : bool :=
  (65 <=? nat_of_ascii c)%nat && (nat_of_ascii c <=? 90)%nat.

Definition lower_ascii (c : ascii) : ascii :=
  if is_upper c then ascii_of_nat (nat_of_ascii c + 32) else c.

Fixpoint lower (s : string) : string :=
  match s with
  | EmptyString => EmptyString
  | String c s' => String (lower_ascii c) (lower s')
  end.

(** [sum(xs)]: accumulation from [0], left to right. *)
Definition sum (xs : list Q) : Q := fold_left Qplus xs 0.

End Py.

(** ** app/models.py *)

Record Trade : Type := mkTrade {
  id_ : Z;
  user_id : Z;
  timestamp : Z;
  symbol : string;
  market : option string;
  direction : string;
  entry_price : Q;
  exit_price : option Q;
  quantity : Q;
  stop_loss : option Q;
  take_profit : option Q;
  fees : option Q;
  risk : option Q;
  notes : option string;
  emotions : option string;
  rule_adherence : option Z
}.

(** [Trade.pl]: profit or loss of the trade, fees deducted; [None] while
    the trade is open. *)
Definition pl (self : Trade) : option Q :=
  match exit_price self with
  | None => None
  | Some exit =>
      let price_diff :=
        if String.eqb (Py.lower (direction self)) "long"
        then exit - entry_price self
        else entry_price self - exit in
      let pnl := price_diff * quantity self in
      let pnl :=
        match fees self with
        | Some f => if Py.truthy f then pnl - f else pnl
        | None => pnl
        end in
      Some pnl
  end.

(** [Trade.r_multiple]: profit or loss in units of the planned risk. *)
Definition r_multiple (self : Trade) : Py.result (option Q) :=
  match risk self with
  | None => Py.Return None
  | Some r =>
      if negb (Py.truthy r) then Py.Return None
      else
        let pl_value := pl self in
        match pl_value with
        | None => Py.Return None
        | Some p =>
            if Qeq_bool r 0 then Py.Return None
            else
              match Py.truediv p r with
              | Py.Return v => Py.Return (Some v)
              | Py.Raise e => Py.Raise e
              end
        end
  end.

(** ** app/forms.py *)

(** Data of a submitted [TradeForm], one entry per field; a numeric field
    left empty holds [None]. *)
Record TradeForm : Type := mkTradeForm {
  f_symbol : string;
  f_market : string;
  f_direction : string;
  f_entry_price : option Q;
  f_exit_price : option Q;
  f_quantity : option Q;
  f_stop_loss : option Q;
  f_take_profit : option Q;
  f_fees : option Q;
  f_risk : option Q;
  f_notes : string;
  f_emotions : string;
  f_rule_adherence : option Z
}.

Module Validators.

Definition is_space (c : ascii) : bool :=
  let n := nat_of_ascii c in
  ((9 <=? n)%nat && (n <=? 13)%nat) || ((28 <=? n)%nat && (n <=? 32)%nat).

Fixpoint has_text (s : string) : bool :=
  match s with
  | EmptyString => false
  | String c s' => negb (is_space c) || has_text s'
  end.

(** [DataRequired] on a text field: something is left after [strip]. *)
Definition data_required_str (s : string) : bool := has_text s.

(** [DataRequired] on a float field: the data is true. *)
Definition data_required_float (o : option Q) : bool := Py.truthy_opt o.

(** [NumberRange(min, max)] on an integer field. *)
Definition number_range (lo hi : Z) (o : option Z) : bool :=
  match o with
  | None => false
  | Some n => (lo <=? n)%Z && (n <=? hi)%Z
  end.

(** The choices of the [direction] select field. *)
Definition direction_choice (s : string) : bool :=
  String.eqb s "long" || String.eqb s "short".

End Validators.

Definition validate (form : TradeForm) : bool :=
  Validators.data_required_str (f_symbol form)
  && Validators.data_required_str (f_market form)
  && Validators.direction_choice (f_direction form)
  && Validators.data_required_str (f_direction form)
  && Validators.data_required_float (f_entry_price form)
  && Validators.data_required_float (f_quantity form)
  && Validators.data_required_float (f_risk form)
  && Validators.number_range 1 5 (f_rule_adherence form).

(** [form.populate_obj(trade)]: every field of the form is written to the
    attribute of the same name.  [entry_price] and [quantity] are columns
    without NULL: writing [None] there is an integrity error, [None] here. *)
Definition populate_obj (form : TradeForm) (trade : Trade) : option Trade :=
  match f_entry_price form, f_quantity form with
  | Some entry, Some qty =>
      Some {| id_ := id_ trade;
              user_id := user_id trade;
              timestamp := timestamp trade;
              symbol := f_symbol form;
              market := Some (f_market form);
              direction := f_direction form;
              entry_price := entry;
              exit_price := f_exit_price form;
              quantity := qty;
              stop_loss := f_stop_loss form;
              take_profit := f_take_profit form;
              fees := f_fees form;
              risk := f_risk form;
              notes := Some (f_notes form);
              emotions := Some (f_emotions form);
              rule_adherence := f_rule_adherence form |}
  | _, _ => None
  end.

(** ** app/routes.py *)

Inductive Method : Type := GET | POST.

Record Request : Type := mkRequest {
  method : Method;
  form_data : TradeForm
}.

(** [form.validate_on_submit()]. *)
Definition validate_on_submit (req : Request) : bool :=
  match method req with
  | POST => validate (form_data req)
  | GET => false
  end.

(** What a view hands to a template. *)
Inductive Context : Type :=
| DashboardContext (trades : list Trade) (net_pl : Q) (win_count loss_count : nat)
| TradeFormContext (trade : option Trade).

Inductive Response : Type :=
| Redirect (endpoint : string)
| RenderTemplate (template : string) (ctx : Context)
| Abort (status : Z).

(** The state a request can touch: the [trade] table, keyed by primary
    key, and the messages flashed to the session. *)
Record World : Type := mkWorld {
  trade_table : gmap Z Trade;
  flashes : list (string * string)
}.

Definition flash (message category : string) (w : World) : World :=
  {| trade_table := trade_table w;
     flashes := flashes w ++ [(message, category)] |}.

(** [db.session.commit()] after the row with primary key [pk] was changed:
    the row is stored under its key. *)
Definition commit_update (pk : Z) (trade : Trade) (w : World) : World :=
  {| trade_table := <[pk := trade]> (trade_table w);
     flashes := flashes w |}.

(** [db.session.delete(trade)] followed by [db.session.commit()], for the
    row with primary key [pk]. *)
Definition commit_delete (pk : Z) (w : World) : World :=
  {| trade_table := delete pk (trade_table w);
     flashes := flashes w |}.

(** *** The dashboard metrics of [index] *)

Definition net_pl (trades : list Trade) : Q :=
  Py.sum (map (fun t => Py.or_zero (pl t)) trades).

Definition win_count (trades : list Trade) : nat :=
  length (List.filter (fun t => Py.gt (Py.or_zero (pl t)) 0) trades).

Definition loss_count (trades : list Trade) : nat :=
  length (List.filter (fun t => Py.lt (Py.or_zero (pl t)) 0) trades).

(** [order_by(Trade.timestamp.desc())]: insertion into a list that is
    already in descending order of timestamp.  The database leaves the order
    of rows with equal timestamps open; here the row inserted last comes
    first. *)
Fixpoint insert_desc (t : Trade) (l : list Trade) : list Trade :=
  match l with
  | [] => [t]
  | u :: l' =>
      if (timestamp u <=? timestamp t)%Z then t :: l
      else u :: insert_desc t l'
  end.

Definition order_by_timestamp_desc (l : list Trade) : list Trade :=
  fold_right insert_desc [] l.

(** [Trade.query.filter_by(user_id=uid).order_by(...).all()]. *)
Definition query_trades (uid : Z) (w : World) : list Trade :=
  order_by_timestamp_desc
    (List.filter (fun t => (user_id t =? uid)%Z)
       (map snd (map_to_list (trade_table w)))).

(** Body of [index], for the logged-in user [current_user_id]. *)
Definition index (current_user_id : Z) (w : World) : Response * World :=
  let trades := query_trades current_user_id w in
  (RenderTemplate "dashboard.html"
     (DashboardContext trades (net_pl trades) (win_count trades)
        (loss_count trades)),
   w).

(** *** The mutating views *)

(** Body of [edit_trade], for the logged-in user [current_user_id].
    [get_or_404] aborts with 404 when the row is missing.  A form that
    validated always populates the row (see [validate_populate]); the 500
    branch stands for the integrity error of the database otherwise. *)
Definition edit_trade (trade_id : Z) (current_user_id : Z) (req : Request)
    (w : World) : Response * World :=
  match trade_table w !! trade_id with
  | None => (Abort 404, w)
  | Some trade =>
      if negb (user_id trade =? current_user_id)%Z then
        (Redirect "main.index", flash "Unauthorized access" "danger" w)
      else if validate_on_submit req then
        match populate_obj (form_data req) trade with
        | Some trade' =>
            (Redirect "main.index",
             flash "Trade updated" "success"
               (commit_update trade_id trade' w))
        | None => (Abort 500, w)
        end
      else
        (RenderTemplate "trade_form.html" (TradeFormContext (Some trade)), w)
  end.

(** Body of [delete_trade], for the logged-in user [current_user_id]. *)
Definition delete_trade (trade_id : Z) (current_user_id : Z) (w : World)
    : Response * World :=
  match trade_table w !! trade_id with
  | None => (Abort 404, w)
  | Some trade =>
      if negb (user_id trade =? current_user_id)%Z then
        (Redirect "main.index", flash "Unauthorized access" "danger" w)
      else
        (Redirect "main.index",
         flash "Trade deleted" "success" (commit_delete trade_id w))
  end.

(** [@login_required]: a request without a logged-in user never reaches
    the view; it is sent to [login_manager.login_view]. *)
Definition login_required {A : Type} (view : Z -> A -> World -> Response * World)
    (current_user : option Z) (a : A) (w : World) : Response * World :=
  match current_user with
  | Some uid => view uid a w
  | None =>
      (Redirect "main.login",
       flash "Please log in to access this page." "message" w)
  end.

Definition index_route : option Z -> unit -> World -> Response * World :=
  login_required (fun uid _ => index uid).

Definition edit_trade_route (trade_id : Z)
    : option Z -> Request -> World -> Response * World :=
  login_required (edit_trade trade_id).

Definition delete_trade_route (trade_id : Z)
    : option Z -> unit -> World -> Response * World :=
  login_required (fun uid _ => delete_trade trade_id uid).


(** *** Creating a trade *)

(** The primary key the database gives to a new row: one more than the
    largest key in use (the rule of SQLite for an integer primary key), [1]
    in an empty table.  What is proved below uses only that the key is not
    in use. *)
Definition next_id {A : Type} (m : gmap Z A) : Z :=
  (1 + foldr (fun kv acc => Z.max (fst kv) acc) 0 (map_to_list m))%Z.

(** [db.session.add(row)] followed by [db.session.commit()]. *)
Definition commit_add (pk : Z) (trade : Trade) (w : World) : World :=
  {| trade_table := <[pk := trade]> (trade_table w);
     flashes := flashes w |}.

(** [Trade(user_id=current_user.id, symbol=form.symbol.data, ...)] as it is
    stored: the key comes from the database, the timestamp is the column
    default [datetime.utcnow], here [now].  As in [populate_obj], [None] in
    a column without NULL is an integrity error. *)
Definition build_trade (pk uid now : Z) (form : TradeForm) : option Trade :=
  match f_entry_price form, f_quantity form with
  | Some entry, Some qty =>
      Some {| id_ := pk;
              user_id := uid;
              timestamp := now;
              symbol := f_symbol form;
              market := Some (f_market form);
              direction := f_direction form;
              entry_price := entry;
              exit_price := f_exit_price form;
              quantity := qty;
              stop_loss := f_stop_loss form;
              take_profit := f_take_profit form;
              fees := f_fees form;
              risk := f_risk form;
              notes := Some (f_notes form);
              emotions := Some (f_emotions form);
              rule_adherence := f_rule_adherence form |}
  | _, _ => None
  end.

(** Body of [new_trade], for the logged-in user [current_user_id], at time
    [now]. *)
Definition new_trade (now : Z) (current_user_id : Z) (req : Request)
    (w : World) : Response * World :=
  if validate_on_submit req then
    let pk := next_id (trade_table w) in
    match build_trade pk current_user_id now (form_data req) with
    | Some trade =>
        (Redirect "main.index",
         flash "Trade saved" "success" (commit_add pk trade w))
    | None => (Abort 500, w)
    end
  else
    (RenderTemplate "trade_form.html" (TradeFormContext None), w).

Definition new_trade_route (now : Z)
    : option Z -> Request -> World -> Response * World :=
  login_required (new_trade now).

(** *** Users, registration and login *)

(** The [User] model. *)
Record User : Type := mkUser {
  u_id : Z;
  username : string;
  password_hash : string
}.

(** The two functions of [werkzeug.security] that [User] calls.  They are
    not part of the application: [generate_password_hash] takes the salt it
    draws as a first argument here. *)
Record Hasher : Type := mkHasher {
  generate_password_hash : string -> string -> string;
  check_password_hash : string -> string -> bool
}.

(** [User.set_password] and [User.check_password]. *)
Definition set_password (h : Hasher) (salt : string) (self : User)
    (password : string) : User :=
  {| u_id := u_id self;
     username := username self;
     password_hash := generate_password_hash h salt password |}.

Definition check_password (h : Hasher) (self : User) (password : string) : bool :=
  check_password_hash h (password_hash self) password.

(** Data of a submitted [RegistrationForm] and [LoginForm]. *)
Record RegistrationForm : Type := mkRegistrationForm {
  rf_username : string;
  rf_password : string;
  rf_confirm_password : string
}.

Record LoginForm : Type := mkLoginForm {
  lf_username : string;
  lf_password : string
}.

(** The validators of the two forms: [DataRequired] on every field and
    [EqualTo("password")] on the confirmation. *)
Definition validate_registration (form : RegistrationForm) : bool :=
  Validators.data_required_str (rf_username form)
  && Validators.data_required_str (rf_password form)
  && Validators.data_required_str (rf_confirm_password form)
  && String.eqb (rf_confirm_password form) (rf_password form).

Definition validate_login (form : LoginForm) : bool :=
  Validators.data_required_str (lf_username form)
  && Validators.data_required_str (lf_password form).

Record RegisterRequest : Type := mkRegisterRequest {
  reg_method : Method;
  reg_form : RegistrationForm;
  reg_salt : string
}.

(** [next_arg] is [request.args.get("next")]. *)
Record LoginRequest : Type := mkLoginRequest {
  login_method : Method;
  login_form : LoginForm;
  next_arg : option string
}.

(** The state of the whole application: the trades and flashed messages,
    the [user] table and the user of the session. *)
Record Site : Type := mkSite {
  world : World;
  user_table : gmap Z User;
  current_user : option Z
}.

Definition flash_site (message category : string) (s : Site) : Site :=
  {| world := flash message category (world s);
     user_table := user_table s;
     current_user := current_user s |}.

(** [current_user.is_authenticated]. *)
Definition is_authenticated (s : Site) : bool :=
  match current_user s with
  | Some _ => true
  | None => false
  end.

(** [User.query.filter_by(username=name).first()]. *)
Definition first_by_username (name : string) (users : gmap Z User)
    : option User :=
  List.find (fun u => String.eqb (username u) name)
    (map snd (map_to_list users)).

(** [login_user(user)] and [logout_user()]. *)
Definition login_user (user : User) (s : Site) : Site :=
  {| world := world s;
     user_table := user_table s;
     current_user := Some (u_id user) |}.


(** [db.session.add(user)] followed by [db.session.commit()]. *)
Definition commit_user (user : User) (s : Site) : Site :=
  {| world := world s;
     user_table := <[u_id user := user]> (user_table s);
     current_user := current_user s |}.

(** Where a view of this part sends the browser: to an endpoint of the
    application, to a URL taken as is, or to a rendered page. *)
Inductive AuthResponse : Type :=
| RedirectEndpoint (endpoint : string)
| RedirectUrl (url : string)
| RenderPage (template : string).

(** [register]. *)
Definition register (h : Hasher) (req : RegisterRequest) (s : Site)
    : AuthResponse * Site :=
  if is_authenticated s then (RedirectEndpoint "main.index", s)
  else
    match reg_method req with
    | POST =>
        if validate_registration (reg_form req) then
          match first_by_username (rf_username (reg_form req)) (user_table s) with
          | Some _ =>
              (RedirectEndpoint "main.register",
               flash_site "Username already exists" "danger" s)
          | None =>
              let user :=
                set_password h (reg_salt req)
                  {| u_id := next_id (user_table s);
                     username := rf_username (reg_form req);
                     password_hash := "" |}
                  (rf_password (reg_form req)) in
              (RedirectEndpoint "main.login",
               flash_site "Registration successful. Please log in." "success"
                 (commit_user user s))
          end
        else (RenderPage "register.html", s)
    | GET => (RenderPage "register.html", s)
    end.

(** [redirect(next_page or url_for("main.index"))]. *)
Definition next_or_index (next_page : option string) : AuthResponse :=
  match next_page with
  | Some (String c url) => RedirectUrl (String c url)
  | _ => RedirectEndpoint "main.index"
  end.

(** [login]. *)
Definition login (h : Hasher) (req : LoginRequest) (s : Site)
    : AuthResponse * Site :=
  if is_authenticated s then (RedirectEndpoint "main.index", s)
  else
    match login_method req with
    | POST =>
        if validate_login (login_form req) then
          match first_by_username (lf_username (login_form req)) (user_table s) with
          | Some user =>
              if check_password h user (lf_password (login_form req)) then
                (next_or_index (next_arg req), login_user user s)
              else
                (RenderPage "login.html",
                 flash_site "Invalid username or password" "danger" s)
          | None =>
              (RenderPage "login.html",
               flash_site "Invalid username or password" "danger" s)
          end
        else (RenderPage "login.html", s)
    | GET => (RenderPage "login.html", s)
    end.



(** * Vocabulary of the specification *)

(** ** Letter case *)

(** Equality of two strings up to the case of their ASCII letters, stated
    without [lower]: character by character, the two are the same or one is
    the other with its case swapped. *)
Definition is_lower (c : ascii) : bool :=
  (97 <=? nat_of_ascii c)%nat && (nat_of_ascii c <=? 122)%nat.

Definition swapcase_ascii (c : ascii) : ascii :=
  if Py.is_upper c then ascii_of_nat (nat_of_ascii c + 32)
  else if is_lower c then ascii_of_nat (nat_of_ascii c - 32)
  else c.

Definition same_letter (c1 c2 : ascii) : bool :=
  Ascii.eqb c1 c2 || Ascii.eqb c1 (swapcase_ascii c2).

Fixpoint eq_ignore_case (s1 s2 : string) : bool :=
  match s1, s2 with
  | EmptyString, EmptyString => true
  | String c1 s1', String c2 s2' => same_letter c1 c2 && eq_ignore_case s1' s2'
  | _, _ => false
  end.

Definition all_ascii : list ascii := map ascii_of_nat (seq 0 256).

(** ** Trades *)

(** The direction of a trade, in any letter case. *)
Definition is_long (t : Trade) : Prop :=
  eq_ignore_case (direction t) "long" = true.

Definition is_short (t : Trade) : Prop :=
  eq_ignore_case (direction t) "short" = true.

(** [net] is [gross] with the fees of [t] taken off: fees that are present
    and not zero are subtracted, absent or zero fees leave [gross] as it
    is. *)
Definition after_fees (t : Trade) (gross net : Q) : Prop :=
  (forall f, fees t = Some f -> ~ f == 0 -> net = gross - f) /\
  (fees t = None \/ (exists f, fees t = Some f /\ f == 0) -> net = gross).

(** [t] with its direction replaced by [d], every other column kept. *)
Definition with_direction (t : Trade) (d : string) : Trade :=
  {| id_ := id_ t; user_id := user_id t; timestamp := timestamp t;
     symbol := symbol t; market := market t; direction := d;
     entry_price := entry_price t; exit_price := exit_price t;
     quantity := quantity t; stop_loss := stop_loss t;
     take_profit := take_profit t; fees := fees t; risk := risk t;
     notes := notes t; emotions := emotions t;
     rule_adherence := rule_adherence t |}.

(** A closed long trade without fees, bought at [0] and sold at [v], one
    unit: its profit or loss is [v]. *)
Definition unit_trade (v : Q) : Trade :=
  {| id_ := 1; user_id := 1; timestamp := 0; symbol := "X"; market := None;
     direction := "long"; entry_price := 0; exit_price := Some v;
     quantity := 1; stop_loss := None; take_profit := None; fees := None;
     risk := None; notes := None; emotions := None; rule_adherence := None |}.

(** ** Dashboard *)

(** The profit or loss with undefined read as zero, a sum over a sequence of
    trades, winning and losing trades. *)
Definition pl_or_zero (t : Trade) : Q :=
  match pl t with
  | Some v => v
  | None => 0
  end.

Fixpoint total (f : Trade -> Q) (l : list Trade) : Q :=
  match l with
  | [] => 0
  | t :: l' => f t + total f l'
  end.

Definition is_win (t : Trade) : Prop :=
  match pl t with
  | Some v => 0 < v
  | None => False
  end.

Definition is_loss (t : Trade) : Prop :=
  match pl t with
  | Some v => v < 0
  | None => False
  end.

(** A trade that is still open or that broke even. *)
Definition is_neutral (t : Trade) : Prop :=
  pl t = None \/ exists v, pl t = Some v /\ v == 0.

#[export] Instance is_win_dec (t : Trade) : Decision (is_win t).
Proof.
  unfold is_win. destruct (pl t) as [v |].
  - destruct (Qlt_le_dec 0 v); [left | right; apply Qle_not_lt]; assumption.
  - right. tauto.
Defined.

#[export] Instance is_loss_dec (t : Trade) : Decision (is_loss t).
Proof.
  unfold is_loss. destruct (pl t) as [v |].
  - destruct (Qlt_le_dec v 0); [left | right; apply Qle_not_lt]; assumption.
  - right. tauto.
Defined.

(** ** Sample data *)

(** The two closed trades worked out in the specification, and variations
    of them. *)
Definition long_trade : Trade :=
  {| id_ := 1; user_id := 1; timestamp := 1700000000; symbol := "ACME";
     market := Some "NYSE"%string; direction := "long";
     entry_price := 100; exit_price := Some 150; quantity := 10;
     stop_loss := None; take_profit := None; fees := Some 20;
     risk := Some 250; notes := None; emotions := None;
     rule_adherence := Some 5%Z |}.

Definition short_trade : Trade :=
  {| id_ := 2; user_id := 1; timestamp := 1700000100; symbol := "ACME";
     market := Some "NYSE"%string; direction := "short";
     entry_price := 100; exit_price := Some 80; quantity := 5;
     stop_loss := None; take_profit := None; fees := Some 0;
     risk := Some 50; notes := None; emotions := None;
     rule_adherence := Some 4%Z |}.

(** A long trade closed below its entry: a loss of [200]. *)
Definition losing_trade : Trade :=
  {| id_ := 3; user_id := 2; timestamp := 1700000200; symbol := "ACME";
     market := None; direction := "Long";
     entry_price := 100; exit_price := Some 90; quantity := 20;
     stop_loss := Some 95; take_profit := None; fees := None;
     risk := Some 100; notes := None; emotions := None;
     rule_adherence := None |}.

(** A trade that is still open. *)
Definition open_trade : Trade :=
  {| id_ := 4; user_id := 2; timestamp := 1700000300; symbol := "ACME";
     market := None; direction := "long";
     entry_price := 100; exit_price := None; quantity := 1;
     stop_loss := None; take_profit := None; fees := None;
     risk := None; notes := None; emotions := None;
     rule_adherence := None |}.

(** A table with the first three trades; users [1] and [2] own rows. *)
Definition sample_world : World :=
  {| trade_table := <[1%Z := long_trade]> (<[2%Z := short_trade]>
                      (<[3%Z := losing_trade]> ∅));
     flashes := [] |}.

Definition sample_form : TradeForm :=
  {| f_symbol := "ACME"; f_market := "NYSE"; f_direction := "short";
     f_entry_price := Some 100; f_exit_price := Some 70;
     f_quantity := Some 5; f_stop_loss := None; f_take_profit := None;
     f_fees := None; f_risk := Some 50; f_notes := ""; f_emotions := "";
     f_rule_adherence := Some 3%Z |}.

Definition sample_post : Request :=
  {| method := POST; form_data := sample_form |}.

(** ** Further vocabulary *)

(** [t] with its exit price replaced, every other column kept. *)
Definition with_exit_price (t : Trade) (x : option Q) : Trade :=
  {| id_ := id_ t; user_id := user_id t; timestamp := timestamp t;
     symbol := symbol t; market := market t; direction := direction t;
     entry_price := entry_price t; exit_price := x;
     quantity := quantity t; stop_loss := stop_loss t;
     take_profit := take_profit t; fees := fees t; risk := risk t;
     notes := notes t; emotions := emotions t;
     rule_adherence := rule_adherence t |}.

#[export] Instance is_neutral_dec (t : Trade) : Decision (is_neutral t).
Proof.
  unfold is_neutral. destruct (pl t) as [v |].
  - destruct (Qeq_dec v 0) as [Hz | Hnz].
    + left. right. exists v. split; [reflexivity | assumption].
    + right. intros [H | (v' & Hv & Hz)]; [discriminate |].
      injection Hv as <-. contradiction.
  - left. left. reflexivity.
Defined.

(** Newest first. *)
Definition newest_first (l : list Trade) : Prop :=
  StronglySorted (fun a b => (timestamp b <= timestamp a)%Z) l.

(** A row as the trade form lets it through: the direction is one of the
    two choices, entry price, quantity and planned risk are present and not
    zero, the rule adherence lies between 1 and 5. *)
Definition from_form (t : Trade) : Prop :=
  (direction t = "long"%string \/ direction t = "short"%string) /\
  ~ entry_price t == 0 /\
  ~ quantity t == 0 /\
  (exists r, risk t = Some r /\ ~ r == 0) /\
  (exists n, rule_adherence t = Some n /\ (1 <= n <= 5)%Z).

(** Every row is stored under its own [id]. *)
Definition keyed_by_id (m : gmap Z Trade) : Prop :=
  forall k t, m !! k = Some t -> id_ t = k.

(** The three requests that write to the [trade] table, and what the
    application does with each for the logged-in user [uid]. *)
Inductive Action : Type :=
| NewTrade (now : Z) (req : Request)
| EditTrade (trade_id : Z) (req : Request)
| DeleteTrade (trade_id : Z).

Definition perform (uid : Z) (a : Action) (w : World) : Response * World :=
  match a with
  | NewTrade now req => new_trade now uid req w
  | EditTrade trade_id req => edit_trade trade_id uid req w
  | DeleteTrade trade_id => delete_trade trade_id uid w
  end.

(** No two users share a name. *)
Definition unique_usernames (users : gmap Z User) : Prop :=
  forall k1 k2 u1 u2,
    users !! k1 = Some u1 -> users !! k2 = Some u2 ->
    username u1 = username u2 -> k1 = k2.

(** A hash checks against the password it was made from. *)
Definition hasher_sound (h : Hasher) : Prop :=
  forall salt password,
    check_password_hash h (generate_password_hash h salt password) password
    = true.

(** ** Further sample data *)

(** A stand-in for the hash functions: the password, a separator and the
    salt; a password checks when the hash starts with it and the
    separator. *)
Definition toy_hasher : Hasher :=
  {| generate_password_hash := fun salt password =>
       (password ++ "$" ++ salt)%string;
     check_password_hash := fun hash password =>
       String.prefix (password ++ "$") hash |}.

Definition alice : User :=
  {| u_id := 1; username := "alice";
     password_hash := "wonderland$s1" |}.

Definition sample_site : Site :=
  {| world := sample_world;
     user_table := {[ 1%Z := alice ]};
     current_user := None |}.

Definition register_bob : RegisterRequest :=
  {| reg_method := POST;
     reg_form := {| rf_username := "bob"; rf_password := "builder";
                    rf_confirm_password := "builder" |};
     reg_salt := "s2" |}.

Definition login_bob : LoginRequest :=
  {| login_method := POST;
     login_form := {| lf_username := "bob"; lf_password := "builder" |};
     next_arg := Some "/trade/new"%string |}.

Definition login_alice : LoginRequest :=
  {| login_method := POST;
     login_form := {| lf_username := "alice"; lf_password := "wonderland" |};
     next_arg := None |}.

(** ** Further definitions *)

(** The four outcomes of a writing request of user [uid] on a table [m]. *)
Inductive table_step (uid : Z) (m : gmap Z Trade) : gmap Z Trade -> Prop :=
| step_none : table_step uid m m
| step_add (t : Trade) :
    m !! next_id m = None -> user_id t = uid -> id_ t = next_id m ->
    from_form t ->
    table_step uid m (<[next_id m := t]> m)
| step_update (k : Z) (t t' : Trade) :
    m !! k = Some t -> user_id t = uid ->
    user_id t' = uid -> id_ t' = id_ t -> timestamp t' = timestamp t ->
    from_form t' ->
    table_step uid m (<[k := t']> m)
| step_delete (k : Z) (t : Trade) :
    m !! k = Some t -> user_id t = uid ->
    table_step uid m (delete k m).

(** The user that [register] stores. *)
Definition new_user (h : Hasher) (req : RegisterRequest) (s : Site) : User :=
  {| u_id := next_id (user_table s);
     username := rf_username (reg_form req);
     password_hash :=
       generate_password_hash h (reg_salt req) (rf_password (reg_form req)) |}.

(** The sample form with a quantity of zero. *)
Definition zero_quantity_form : TradeForm :=
  {| f_symbol := "ACME"; f_market := "NYSE"; f_direction := "long";
     f_entry_price := Some 100; f_exit_price := None;
     f_quantity := Some 0; f_stop_loss := None; f_take_profit := None;
     f_fees := None; f_risk := Some 50; f_notes := ""; f_emotions := "";
     f_rule_adherence := Some 3%Z |}.

(** A login of alice that asks to be sent to another site. *)
Definition login_alice_elsewhere : LoginRequest :=
  {| login_method := POST;
     login_form := {| lf_username := "alice"; lf_password := "wonderland" |};
     next_arg := Some "http://elsewhere.example/"%string |}.

(** A login of alice with a wrong password, and one of an unknown user. *)
Definition login_alice_wrong : LoginRequest :=
  {| login_method := POST;
     login_form := {| lf_username := "alice"; lf_password := "looking-glass" |};
     next_arg := None |}.

(** * Properties *)

(** ** Python values *)

Lemma truthy_true (x : Q) : Py.truthy x = true <-> ~ x == 0.
Proof.
  unfold Py.truthy. rewrite negb_true_iff, <- not_true_iff_false.
  now rewrite Qeq_bool_iff.
Qed.

Lemma truthy_false (x : Q) : Py.truthy x = false <-> x == 0.
Proof. unfold Py.truthy. now rewrite negb_false_iff, Qeq_bool_iff. Qed.

Lemma lt_true (a b : Q) : Py.lt a b = true <-> a < b.
Proof.
  unfold Py.lt. rewrite negb_true_iff, <- not_true_iff_false, Qle_bool_iff.
  split; [apply Qnot_le_lt | apply Qlt_not_le].
Qed.

Lemma gt_true (a b : Q) : Py.gt a b = true <-> b < a.
Proof. apply lt_true. Qed.

(** Addition of rationals is commutative and associative on the
    representation itself, not only up to [==]. *)
Lemma Qplus_comm_eq (x y : Q) : x + y = y + x.
Proof.
  destruct x as [a b], y as [c d]. unfold Qplus. simpl.
  f_equal; [ring | apply Pos.mul_comm].
Qed.

Lemma Qplus_assoc_eq (x y z : Q) : x + y + z = x + (y + z).
Proof.
  destruct x as [a b], y as [c d], z as [e f]. unfold Qplus. simpl.
  f_equal; [rewrite !Pos2Z.inj_mul; ring | symmetry; apply Pos.mul_assoc].
Qed.

Lemma sum_perm (xs ys : list Q) :
  Permutation xs ys -> forall a, fold_left Qplus xs a = fold_left Qplus ys a.
Proof.
  induction 1 as [| x l l' _ IH | x y l | l l' l'' _ IH1 _ IH2];
    intros a; simpl.
  - reflexivity.
  - apply IH.
  - f_equal. rewrite !Qplus_assoc_eq. f_equal. apply Qplus_comm_eq.
  - now rewrite IH1.
Qed.

Lemma fold_left_Qplus (xs : list Q) (a : Q) :
  fold_left Qplus xs a == a + fold_right Qplus 0 xs.
Proof.
  revert a. induction xs as [| x xs IH]; intros a; simpl.
  - ring.
  - rewrite IH. ring.
Qed.

(** ** Letter case *)

Lemma in_all_ascii (c : ascii) : In c all_ascii.
Proof.
  rewrite <- (ascii_nat_embedding c). apply in_map, in_seq.
  pose proof (nat_ascii_bounded c). lia.
Qed.

Lemma same_letter_lower (c1 c2 : ascii) :
  same_letter c1 c2 = Ascii.eqb (Py.lower_ascii c1) (Py.lower_ascii c2).
Proof.
  assert (H : forallb (fun a => forallb (fun b =>
                Bool.eqb (same_letter a b)
                  (Ascii.eqb (Py.lower_ascii a) (Py.lower_ascii b)))
                all_ascii) all_ascii = true) by (vm_compute; reflexivity).
  rewrite forallb_forall in H. specialize (H c1 (in_all_ascii c1)).
  rewrite forallb_forall in H. specialize (H c2 (in_all_ascii c2)).
  now apply Bool.eqb_prop in H.
Qed.

Lemma eq_ignore_case_lower (s1 s2 : string) :
  eq_ignore_case s1 s2 = String.eqb (Py.lower s1) (Py.lower s2).
Proof.
  revert s2. induction s1 as [| c1 s1 IH]; intros [| c2 s2]; simpl; try reflexivity.
  rewrite same_letter_lower, IH.
  destruct (Ascii.eqb (Py.lower_ascii c1) (Py.lower_ascii c2)); reflexivity.
Qed.

(** The test [self.direction.lower() == 'long'] of [pl]. *)
Lemma lower_is_long (s : string) :
  String.eqb (Py.lower s) "long" = eq_ignore_case s "long".
Proof. symmetry. apply eq_ignore_case_lower. Qed.

(** ** [Trade.pl] *)

Lemma pl_open (t : Trade) : pl t = None <-> exit_price t = None.
Proof.
  unfold pl. destruct (exit_price t); split; intros H; congruence.
Qed.

Lemma pl_closed (t : Trade) (x : Q) :
  exit_price t = Some x -> exists v, pl t = Some v.
Proof. intros H. unfold pl. rewrite H. eexists; reflexivity. Qed.

Lemma after_fees_intro (t : Trade) (gross : Q) :
  after_fees t gross
    match fees t with
    | Some f => if Py.truthy f then gross - f else gross
    | None => gross
    end.
Proof.
  split.
  - intros f Hf Hnz. rewrite Hf.
    apply truthy_true in Hnz. now rewrite Hnz.
  - intros [Hn | (f & Hf & Hz)].
    + now rewrite Hn.
    + rewrite Hf. apply truthy_false in Hz. now rewrite Hz.
Qed.

Lemma pl_long (t : Trade) (x : Q) :
  exit_price t = Some x -> is_long t ->
  exists net, pl t = Some net /\
              after_fees t ((x - entry_price t) * quantity t) net.
Proof.
  intros Hx Hl. unfold pl. rewrite Hx, lower_is_long. red in Hl. rewrite Hl.
  eexists; split; [reflexivity | apply after_fees_intro].
Qed.

Lemma pl_not_long (t : Trade) (x : Q) :
  exit_price t = Some x -> eq_ignore_case (direction t) "long" = false ->
  exists net, pl t = Some net /\
              after_fees t ((entry_price t - x) * quantity t) net.
Proof.
  intros Hx Hl. unfold pl. rewrite Hx, lower_is_long, Hl.
  eexists; split; [reflexivity | apply after_fees_intro].
Qed.

Lemma short_not_long (t : Trade) :
  is_short t -> eq_ignore_case (direction t) "long" = false.
Proof.
  unfold is_short. rewrite !eq_ignore_case_lower. simpl.
  intros H. apply String.eqb_eq in H. now rewrite H.
Qed.

Lemma pl_unit_trade (v : Q) : exists p, pl (unit_trade v) = Some p /\ p == v.
Proof. exists ((v - 0) * 1). split; [reflexivity | ring]. Qed.

Lemma pl_with_direction (t : Trade) (d1 d2 : string) :
  Py.lower d1 = Py.lower d2 ->
  pl (with_direction t d1) = pl (with_direction t d2).
Proof. intros H. unfold pl. simpl. now rewrite H. Qed.

(** The worked examples of the specification. *)
Example pl_long_trade : pl long_trade = Some 480.
Proof. reflexivity. Qed.

Example pl_short_trade : pl short_trade = Some 100.
Proof. reflexivity. Qed.

Example pl_open_trade : pl open_trade = None.
Proof. reflexivity. Qed.

(** C1. [pl] is undefined exactly for a trade without exit price.  With an
    exit price [x] it is [(x - entry_price) * quantity] for a long trade and
    [(entry_price - x) * quantity] for a short one, less the fees when fees
    are present and not zero.  Nothing is clamped: every rational, negative,
    zero or positive, is the profit or loss of some trade. *)
Theorem pl_spec :
  (forall t : Trade,
      (pl t = None <-> exit_price t = None) /\
      (forall x, exit_price t = Some x -> is_long t ->
         exists net, pl t = Some net /\
                     after_fees t ((x - entry_price t) * quantity t) net) /\
      (forall x, exit_price t = Some x -> is_short t ->
         exists net, pl t = Some net /\
                     after_fees t ((entry_price t - x) * quantity t) net)) /\
  (forall v : Q, exists t p, pl t = Some p /\ p == v).
Proof.
  split.
  - intros t. split; [apply pl_open | split].
    + apply pl_long.
    + intros x Hx Hs. apply pl_not_long; [assumption |].
      now apply short_not_long.
  - intros v. exists (unit_trade v). apply pl_unit_trade.
Qed.

Lemma pl_spec_witness :
  (exists net, pl long_trade = Some net /\
               after_fees long_trade ((150 - 100) * 10) net) /\
  (exists net, pl short_trade = Some net /\
               after_fees short_trade ((100 - 80) * 5) net).
Proof.
  destruct pl_spec as [H _]. split.
  - destruct (H long_trade) as (_ & Hl & _). apply (Hl 150); reflexivity.
  - destruct (H short_trade) as (_ & _ & Hs). apply (Hs 80); reflexivity.
Defined.

(** C6. Two closed trades that differ only in the letter case of their
    direction have the same, defined, profit or loss. *)
Theorem pl_case_insensitive (t : Trade) (d1 d2 : string) (x : Q) :
  exit_price t = Some x ->
  eq_ignore_case d1 d2 = true ->
  exists v, pl (with_direction t d1) = Some v /\
            pl (with_direction t d2) = Some v.
Proof.
  intros Hx Hd. rewrite eq_ignore_case_lower in Hd. apply String.eqb_eq in Hd.
  destruct (pl_closed (with_direction t d1) x Hx) as [v Hv].
  exists v. split; [assumption |].
  now rewrite <- (pl_with_direction t d1 d2 Hd).
Qed.

Lemma pl_case_insensitive_witness :
  exists v, pl (with_direction long_trade "LONG") = Some v /\
            pl (with_direction long_trade "Long") = Some v.
Proof. apply (pl_case_insensitive long_trade "LONG" "Long" 150); reflexivity. Defined.

(** C8. A closed trade whose direction is not ['long'] in any letter case,
    be it ['short'], the empty string or any other text, gets the short
    formula [(entry_price - x) * quantity], less the fees when present and
    not zero; the result is defined. *)
Theorem pl_not_long_is_short (t : Trade) (x : Q) :
  exit_price t = Some x ->
  eq_ignore_case (direction t) "long" = false ->
  exists net, pl t = Some net /\
              after_fees t ((entry_price t - x) * quantity t) net.
Proof. apply pl_not_long. Qed.

Lemma pl_not_long_is_short_witness :
  (exists net, pl (with_direction long_trade "") = Some net /\
               after_fees (with_direction long_trade "") ((100 - 150) * 10) net) /\
  (exists net, pl (with_direction long_trade "sideways") = Some net /\
               after_fees (with_direction long_trade "sideways")
                 ((100 - 150) * 10) net).
Proof.
  split.
  - apply (pl_not_long_is_short (with_direction long_trade "") 150); reflexivity.
  - apply (pl_not_long_is_short (with_direction long_trade "sideways") 150);
      reflexivity.
Defined.

Example pl_empty_direction : pl (with_direction long_trade "") = Some (-520).
Proof. reflexivity. Qed.

(** ** [Trade.r_multiple] *)

Lemma r_multiple_no_risk (t : Trade) :
  risk t = None \/ (exists r, risk t = Some r /\ r == 0) ->
  r_multiple t = Py.Return None.
Proof.
  unfold r_multiple. intros [Hn | (r & Hr & Hz)].
  - now rewrite Hn.
  - rewrite Hr. apply truthy_false in Hz. now rewrite Hz.
Qed.

Lemma r_multiple_open (t : Trade) :
  pl t = None -> r_multiple t = Py.Return None.
Proof.
  intros Hp. unfold r_multiple. rewrite Hp.
  destruct (risk t) as [r |]; [| reflexivity].
  destruct (negb (Py.truthy r)); reflexivity.
Qed.

Lemma r_multiple_defined (t : Trade) (r p : Q) :
  risk t = Some r -> ~ r == 0 -> pl t = Some p ->
  r_multiple t = Py.Return (Some (p / r)).
Proof.
  intros Hr Hnz Hp. unfold r_multiple, Py.truediv. rewrite Hr, Hp.
  pose proof (proj2 (truthy_true r) Hnz) as Ht. rewrite Ht. simpl.
  unfold Py.truthy in Ht. apply negb_true_iff in Ht. now rewrite Ht.
Qed.

Lemma r_multiple_cases (t : Trade) :
  r_multiple t = Py.Return None \/
  exists r p, risk t = Some r /\ ~ r == 0 /\ pl t = Some p /\
              r_multiple t = Py.Return (Some (p / r)).
Proof.
  destruct (risk t) as [r |] eqn:Hr.
  - destruct (Qeq_dec r 0) as [Hz | Hnz].
    + left. apply r_multiple_no_risk. right. now exists r.
    + destruct (pl t) as [p |] eqn:Hp.
      * right. exists r, p. repeat split; try assumption.
        now apply r_multiple_defined.
      * left. now apply r_multiple_open.
  - left. apply r_multiple_no_risk. now left.
Qed.

(** C3. [r_multiple] is undefined when the risk is absent or zero and when
    the profit or loss is undefined; otherwise it is the profit or loss
    divided by the risk.  It never raises: a zero or absent risk yields the
    undefined result, not a division error. *)
Theorem r_multiple_spec (t : Trade) :
  (risk t = None \/ (exists r, risk t = Some r /\ r == 0) ->
   r_multiple t = Py.Return None) /\
  (pl t = None -> r_multiple t = Py.Return None) /\
  (forall r p, risk t = Some r -> ~ r == 0 -> pl t = Some p ->
               r_multiple t = Py.Return (Some (p / r))) /\
  (forall e, r_multiple t <> Py.Raise e).
Proof.
  split; [apply r_multiple_no_risk |].
  split; [apply r_multiple_open |].
  split; [intros r p; apply r_multiple_defined |].
  intros e He.
  destruct (r_multiple_cases t) as [H | (r & p & _ & _ & _ & H)];
    rewrite H in He; discriminate.
Qed.

Lemma r_multiple_spec_witness :
  r_multiple open_trade = Py.Return None /\
  r_multiple long_trade = Py.Return (Some (480 / 250)).
Proof.
  split.
  - apply (proj1 (r_multiple_spec open_trade)). left. reflexivity.
  - apply (proj1 (proj2 (proj2 (r_multiple_spec long_trade))));
      [reflexivity | unfold Qeq; simpl; lia | reflexivity].
Defined.



(** C9. Whenever the R-multiple is defined, multiplying it by the risk of
    the trade gives back its profit or loss. *)
Theorem r_multiple_times_risk (t : Trade) (v : Q) :
  r_multiple t = Py.Return (Some v) ->
  exists r p, risk t = Some r /\ pl t = Some p /\ v * r == p.
Proof.
  intros Hv.
  destruct (r_multiple_cases t) as [H | (r & p & Hr & Hnz & Hp & H)];
    rewrite H in Hv; [discriminate |].
  injection Hv as <-. exists r, p. repeat split; try assumption.
  now field.
Qed.

Lemma r_multiple_times_risk_witness :
  exists r p, risk losing_trade = Some r /\ pl losing_trade = Some p /\
              (-200 / 100) * r == p.
Proof. apply (r_multiple_times_risk losing_trade (-200 / 100)). reflexivity. Defined.

(** ** Dashboard metrics *)

Lemma or_zero_pl (t : Trade) : Py.or_zero (pl t) == pl_or_zero t.
Proof.
  unfold Py.or_zero, pl_or_zero. destruct (pl t) as [v |]; [| reflexivity].
  destruct (Py.truthy v) eqn:Hv; [reflexivity |].
  apply truthy_false in Hv. now rewrite Hv.
Qed.

Lemma win_test (t : Trade) :
  Py.gt (Py.or_zero (pl t)) 0 = true <-> is_win t.
Proof.
  rewrite gt_true. unfold is_win.
  pose proof (or_zero_pl t) as H. unfold pl_or_zero in H.
  destruct (pl t) as [v |]; [now rewrite H |].
  simpl. split; [apply Qlt_irrefl | tauto].
Qed.

Lemma loss_test (t : Trade) :
  Py.lt (Py.or_zero (pl t)) 0 = true <-> is_loss t.
Proof.
  rewrite lt_true. unfold is_loss.
  pose proof (or_zero_pl t) as H. unfold pl_or_zero in H.
  destruct (pl t) as [v |]; [now rewrite H |].
  simpl. split; [apply Qlt_irrefl | tauto].
Qed.

Lemma neutral_not_win (t : Trade) : is_neutral t -> ~ is_win t /\ ~ is_loss t.
Proof.
  unfold is_win, is_loss. intros [Hn | (v & Hv & Hz)].
  - rewrite Hn. tauto.
  - rewrite Hv, Hz. split; apply Qlt_irrefl.
Qed.

Section Counting.

Context {A : Type} (f : A -> bool) (P : A -> Prop) `{!forall x, Decision (P x)}.
Hypothesis f_P : forall x, f x = true <-> P x.

Lemma length_filter_decide (l : list A) :
  length (List.filter f l) = length (filter P l).
Proof.
  induction l as [| x l IH]; [reflexivity |].
  simpl. rewrite filter_cons.
  destruct (decide (P x)) as [Hx | Hx].
  - apply f_P in Hx. rewrite Hx. simpl. now rewrite IH.
  - destruct (f x) eqn:Hf; [now apply f_P in Hf | assumption].
Qed.

End Counting.

Lemma length_filter_drop {A : Type} (f : A -> bool) (x : A) (l1 l2 : list A) :
  f x = false ->
  length (List.filter f (l1 ++ x :: l2)) = length (List.filter f (l1 ++ l2)).
Proof.
  intros Hx. rewrite !List.filter_app. simpl. now rewrite Hx.
Qed.

Lemma length_filter_perm {A : Type} (f : A -> bool) (l l' : list A) :
  Permutation l l' ->
  length (List.filter f l) = length (List.filter f l').
Proof.
  induction 1 as [| x l l' _ IH | x y l | l l' l'' _ IH1 _ IH2]; simpl.
  - reflexivity.
  - destruct (f x); simpl; now rewrite IH.
  - destruct (f x), (f y); reflexivity.
  - now rewrite IH1.
Qed.

Lemma net_pl_total (l : list Trade) : net_pl l == total pl_or_zero l.
Proof.
  unfold net_pl, Py.sum. rewrite fold_left_Qplus, Qplus_0_l.
  induction l as [| t l IH]; simpl; [reflexivity |].
  now rewrite IH, or_zero_pl.
Qed.

Lemma net_pl_perm (l l' : list Trade) :
  Permutation l l' -> net_pl l = net_pl l'.
Proof.
  intros H. unfold net_pl, Py.sum. apply sum_perm. now apply Permutation_map.
Qed.

Example dashboard_sample :
  net_pl [long_trade; short_trade; losing_trade; open_trade] = 380 /\
  win_count [long_trade; short_trade; losing_trade; open_trade] = 2%nat /\
  loss_count [long_trade; short_trade; losing_trade; open_trade] = 1%nat.
Proof. repeat split. Qed.

(** C2. For every sequence of trades, [net_pl] is the sum of the profits
    and losses with undefined read as zero, [win_count] the number of trades
    with a defined profit or loss above zero, [loss_count] the number with
    one below zero; a trade that is open or broke even adds to neither
    count, and the empty sequence gives [0], [0] and [0]. *)
Theorem dashboard_metrics_spec :
  (forall trades : list Trade,
      net_pl trades == total pl_or_zero trades /\
      win_count trades = length (filter is_win trades) /\
      loss_count trades = length (filter is_loss trades)) /\
  (forall (t : Trade) (l1 l2 : list Trade),
      is_neutral t ->
      ~ is_win t /\ ~ is_loss t /\
      win_count (l1 ++ t :: l2) = win_count (l1 ++ l2) /\
      loss_count (l1 ++ t :: l2) = loss_count (l1 ++ l2)) /\
  (net_pl [] = 0 /\ win_count [] = 0%nat /\ loss_count [] = 0%nat).
Proof.
  split; [| split].
  - intros trades. split; [apply net_pl_total | split].
    + apply length_filter_decide, win_test.
    + apply length_filter_decide, loss_test.
  - intros t l1 l2 Ht. destruct (neutral_not_win t Ht) as [Hw Hl].
    split; [assumption | split; [assumption | split]].
    + apply length_filter_drop.
      apply not_true_is_false. now rewrite win_test.
    + apply length_filter_drop.
      apply not_true_is_false. now rewrite loss_test.
  - repeat split.
Qed.

Lemma dashboard_metrics_spec_witness :
  ~ is_win open_trade /\ ~ is_loss open_trade /\
  win_count ([long_trade] ++ open_trade :: [losing_trade])
  = win_count ([long_trade] ++ [losing_trade]) /\
  loss_count ([long_trade] ++ open_trade :: [losing_trade])
  = loss_count ([long_trade] ++ [losing_trade]).
Proof.
  apply (proj1 (proj2 dashboard_metrics_spec)). left. reflexivity.
Defined.



(** ** Ownership *)

Lemma flash_trade_table (m c : string) (w : World) :
  trade_table (flash m c w) = trade_table w.
Proof. reflexivity. Qed.

Lemma edit_trade_not_owner (w : World) (trade_id uid : Z) (trade : Trade)
    (req : Request) :
  trade_table w !! trade_id = Some trade -> user_id trade <> uid ->
  edit_trade trade_id uid req w =
    (Redirect "main.index", flash "Unauthorized access" "danger" w).
Proof.
  intros Ht Hne. unfold edit_trade. rewrite Ht.
  apply Z.eqb_neq in Hne. now rewrite Hne.
Qed.

Lemma delete_trade_not_owner (w : World) (trade_id uid : Z) (trade : Trade) :
  trade_table w !! trade_id = Some trade -> user_id trade <> uid ->
  delete_trade trade_id uid w =
    (Redirect "main.index", flash "Unauthorized access" "danger" w).
Proof.
  intros Ht Hne. unfold delete_trade. rewrite Ht.
  apply Z.eqb_neq in Hne. now rewrite Hne.
Qed.

(** The guard is what protects the row: for the owner the same requests go
    through. *)
Lemma delete_trade_owner (w : World) (trade_id : Z) (trade : Trade) :
  trade_table w !! trade_id = Some trade ->
  trade_table (snd (delete_trade trade_id (user_id trade) w)) !! trade_id = None.
Proof.
  intros Ht. unfold delete_trade. rewrite Ht, Z.eqb_refl. simpl.
  apply lookup_delete_eq.
Qed.

Lemma validate_populate (form : TradeForm) (trade : Trade) :
  validate form = true -> exists trade', populate_obj form trade = Some trade'.
Proof.
  unfold validate, populate_obj, Validators.data_required_float.
  rewrite !andb_true_iff. intros [[[[_ He] Hq] _] _].
  destruct (f_entry_price form); [| discriminate].
  destruct (f_quantity form); [| discriminate].
  eexists; reflexivity.
Qed.

Lemma edit_trade_owner (w : World) (trade_id : Z) (trade : Trade)
    (req : Request) :
  trade_table w !! trade_id = Some trade ->
  validate_on_submit req = true ->
  exists trade',
    populate_obj (form_data req) trade = Some trade' /\
    trade_table (snd (edit_trade trade_id (user_id trade) req w)) !! trade_id
    = Some trade'.
Proof.
  intros Ht Hv.
  assert (Hf : validate (form_data req) = true).
  { unfold validate_on_submit in Hv. now destruct (method req). }
  destruct (validate_populate (form_data req) trade Hf) as [trade' Hp].
  exists trade'. split; [assumption |].
  unfold edit_trade. rewrite Ht, Z.eqb_refl, Hv, Hp. simpl.
  apply lookup_insert_eq.
Qed.

Example edit_by_owner_changes_row :
  direction <$> (trade_table (snd (edit_trade 1 1 sample_post sample_world)) !! 1%Z)
  = Some "short"%string.
Proof. reflexivity. Qed.

Example edit_by_other_user_keeps_row :
  trade_table (snd (edit_trade 1 2 sample_post sample_world)) !! 1%Z
  = Some long_trade.
Proof. reflexivity. Qed.

Lemma login_required_anonymous {A : Type}
    (view : Z -> A -> World -> Response * World) (a : A) (w : World) :
  fst (login_required view None a w) = Redirect "main.login" /\
  trade_table (snd (login_required view None a w)) = trade_table w.
Proof. split; reflexivity. Qed.

(** C4. An edit or a delete of a trade by a logged-in user who does not own
    it is refused: the answer is a redirect to the dashboard, not an error,
    and the table of trades is left as it was. *)
Theorem not_owner_refused (w : World) (trade_id uid : Z) (trade : Trade)
    (req : Request) :
  trade_table w !! trade_id = Some trade ->
  user_id trade <> uid ->
  (fst (edit_trade_route trade_id (Some uid) req w) = Redirect "main.index" /\
   trade_table (snd (edit_trade_route trade_id (Some uid) req w))
   = trade_table w) /\
  (fst (delete_trade_route trade_id (Some uid) tt w) = Redirect "main.index" /\
   trade_table (snd (delete_trade_route trade_id (Some uid) tt w))
   = trade_table w).
Proof.
  intros Ht Hne. unfold edit_trade_route, delete_trade_route, login_required.
  rewrite (edit_trade_not_owner w trade_id uid trade req Ht Hne).
  rewrite (delete_trade_not_owner w trade_id uid trade Ht Hne).
  repeat split.
Qed.

Lemma not_owner_refused_witness :
  (fst (edit_trade_route 3 (Some 1%Z) sample_post sample_world)
   = Redirect "main.index" /\
   trade_table (snd (edit_trade_route 3 (Some 1%Z) sample_post sample_world))
   = trade_table sample_world) /\
  (fst (delete_trade_route 3 (Some 1%Z) tt sample_world)
   = Redirect "main.index" /\
   trade_table (snd (delete_trade_route 3 (Some 1%Z) tt sample_world))
   = trade_table sample_world).
Proof.
  apply (not_owner_refused sample_world 3 1 losing_trade sample_post);
    [reflexivity | simpl; lia].
Defined.

(** C10. An edit or a delete that names a trade id without a row is
    answered with 404 before anything else happens: the state after the
    request is the state before it.  Whoever sends the request, logged in
    or not, the table of trades is unchanged. *)
Theorem missing_trade_not_found (w : World) (trade_id : Z) (req : Request) :
  trade_table w !! trade_id = None ->
  (forall uid : Z,
      edit_trade_route trade_id (Some uid) req w = (Abort 404, w) /\
      delete_trade_route trade_id (Some uid) tt w = (Abort 404, w)) /\
  (forall current_user : option Z,
      trade_table (snd (edit_trade_route trade_id current_user req w))
      = trade_table w /\
      trade_table (snd (delete_trade_route trade_id current_user tt w))
      = trade_table w).
Proof.
  intros Ht.
  assert (He : forall uid, edit_trade trade_id uid req w = (Abort 404, w))
    by (intros uid; unfold edit_trade; now rewrite Ht).
  assert (Hd : forall uid, delete_trade trade_id uid w = (Abort 404, w))
    by (intros uid; unfold delete_trade; now rewrite Ht).
  split.
  - intros uid. split; [apply He | apply Hd].
  - intros [uid |]; unfold edit_trade_route, delete_trade_route, login_required.
    + now rewrite He, Hd.
    + split; reflexivity.
Qed.

Lemma missing_trade_not_found_witness :
  edit_trade_route 7 (Some 1%Z) sample_post sample_world
  = (Abort 404, sample_world) /\
  delete_trade_route 7 (Some 1%Z) tt sample_world = (Abort 404, sample_world).
Proof.
  apply (proj1 (missing_trade_not_found sample_world 7 sample_post eq_refl)).
Defined.

(** * Further properties of the code *)

(** ** More on [Trade.pl] and [Trade.r_multiple] *)

(** The fees that [pl] takes off: the fees when present and not zero,
    nothing otherwise. *)
Lemma pl_value (t : Trade) (x : Q) :
  exit_price t = Some x ->
  exists p, pl t = Some p /\
    p == (if eq_ignore_case (direction t) "long"
          then x - entry_price t else entry_price t - x) * quantity t
         - Py.or_zero (fees t).
Proof.
  intros Hx. unfold pl. rewrite Hx, lower_is_long.
  eexists; split; [reflexivity |].
  unfold Py.or_zero. destruct (fees t) as [f |]; [| ring].
  destruct (Py.truthy f); ring.
Qed.



(** X2. A trade closed at its entry price loses exactly its fees, whatever
    its direction and quantity; without fees it breaks even. *)
Theorem pl_break_even (t : Trade) (x : Q) :
  exit_price t = Some x ->
  x == entry_price t ->
  exists p, pl t = Some p /\ p == - Py.or_zero (fees t).
Proof.
  intros Hx He. destruct (pl_value t x Hx) as (p & Hp & E).
  exists p. split; [assumption |]. rewrite E.
  destruct (eq_ignore_case (direction t) "long"); rewrite He; ring.
Qed.

Lemma pl_break_even_witness :
  exists p, pl (with_exit_price long_trade (Some 100)) = Some p /\
            p == - Py.or_zero (fees long_trade).
Proof.
  apply (pl_break_even (with_exit_price long_trade (Some 100)) 100);
    reflexivity.
Defined.



(** X4. The R-multiple is defined exactly when the planned risk is present
    and not zero and the trade has an exit price. *)
Theorem r_multiple_defined_iff (t : Trade) :
  (exists v, r_multiple t = Py.Return (Some v)) <->
  (exists r, risk t = Some r /\ ~ r == 0) /\ exit_price t <> None.
Proof.
  split.
  - intros [v Hv].
    destruct (r_multiple_cases t) as [H | (r & p & Hr & Hnz & Hp & _)].
    + rewrite H in Hv. discriminate.
    + split; [now exists r |]. intros Hx. apply pl_open in Hx. congruence.
  - intros [(r & Hr & Hnz) Hx].
    destruct (exit_price t) as [x |] eqn:Ex; [| contradiction].
    destruct (pl_closed t x Ex) as [p Hp].
    exists (p / r). now apply r_multiple_defined.
Qed.



(** ** The trade form *)

Lemma data_required_float_true (o : option Q) :
  Validators.data_required_float o = true <-> exists x, o = Some x /\ ~ x == 0.
Proof.
  unfold Validators.data_required_float, Py.truthy_opt.
  destruct o as [x |].
  - rewrite truthy_true. split.
    + intros H. now exists x.
    + intros (y & Hy & H). now injection Hy as ->.
  - split; [discriminate | intros (y & Hy & _); discriminate].
Qed.

Lemma number_range_true (lo hi : Z) (o : option Z) :
  Validators.number_range lo hi o = true <->
  exists n, o = Some n /\ (lo <= n <= hi)%Z.
Proof.
  unfold Validators.number_range. destruct o as [n |].
  - rewrite andb_true_iff, !Z.leb_le. split.
    + intros H. now exists n.
    + intros (m & Hm & H). now injection Hm as ->.
  - split; [discriminate | intros (m & Hm & _); discriminate].
Qed.

Lemma direction_choice_true (s : string) :
  Validators.direction_choice s = true <->
  s = "long"%string \/ s = "short"%string.
Proof.
  unfold Validators.direction_choice.
  now rewrite orb_true_iff, !String.eqb_eq.
Qed.

Lemma validate_fields (form : TradeForm) :
  validate form = true ->
  (f_direction form = "long"%string \/ f_direction form = "short"%string) /\
  (exists e, f_entry_price form = Some e /\ ~ e == 0) /\
  (exists q, f_quantity form = Some q /\ ~ q == 0) /\
  (exists r, f_risk form = Some r /\ ~ r == 0) /\
  (exists n, f_rule_adherence form = Some n /\ (1 <= n <= 5)%Z).
Proof.
  unfold validate. rewrite !andb_true_iff.
  intros [[[[[[[_ _] Hd] _] He] Hq] Hr] Hn].
  apply direction_choice_true in Hd.
  apply data_required_float_true in He, Hq, Hr.
  apply number_range_true in Hn. tauto.
Qed.

(** X6. An entry price, a quantity or a planned risk of exactly zero is
    refused by the trade form, like a missing one. *)
Theorem validate_rejects_zero (form : TradeForm) (x : Q) :
  f_entry_price form = Some x \/ f_quantity form = Some x \/
  f_risk form = Some x ->
  x == 0 ->
  validate form = false.
Proof.
  intros H Hz. apply not_true_is_false. intros Hv.
  destruct (validate_fields form Hv)
    as (_ & (e & He & Hne) & (q & Hq & Hnq) & (r & Hr & Hnr) & _).
  destruct H as [H | [H | H]]; congruence.
Qed.

Lemma validate_rejects_zero_witness : validate zero_quantity_form = false.
Proof.
  apply (validate_rejects_zero zero_quantity_form 0);
    [right; left; reflexivity | reflexivity].
Defined.

Lemma populate_obj_from_form (form : TradeForm) (trade : Trade) :
  validate form = true ->
  exists trade',
    populate_obj form trade = Some trade' /\
    from_form trade' /\
    id_ trade' = id_ trade /\ user_id trade' = user_id trade /\
    timestamp trade' = timestamp trade.
Proof.
  intros Hv.
  destruct (validate_fields form Hv)
    as (Hd & (e & He & Hne) & (q & Hq & Hnq) & Hr & Hn).
  unfold populate_obj. rewrite He, Hq. eexists. split; [reflexivity |].
  unfold from_form. simpl. tauto.
Qed.

Lemma build_trade_from_form (pk uid now : Z) (form : TradeForm) :
  validate form = true ->
  exists trade,
    build_trade pk uid now form = Some trade /\
    from_form trade /\
    id_ trade = pk /\ user_id trade = uid /\ timestamp trade = now.
Proof.
  intros Hv.
  destruct (validate_fields form Hv)
    as (Hd & (e & He & Hne) & (q & Hq & Hnq) & Hr & Hn).
  unfold build_trade. rewrite He, Hq. eexists. split; [reflexivity |].
  unfold from_form. simpl. tauto.
Qed.

Lemma validate_on_submit_true (req : Request) :
  validate_on_submit req = true ->
  method req = POST /\ validate (form_data req) = true.
Proof. unfold validate_on_submit. destruct (method req); [discriminate | tauto]. Qed.

(** ** Keys of new rows *)

Lemma max_key_bound {A : Type} (l : list (Z * A)) (k : Z) (v : A) :
  In (k, v) l ->
  (k <= foldr (fun kv acc => Z.max (fst kv) acc) 0 l)%Z.
Proof.
  induction l as [| [k' v'] l IH]; simpl; [tauto |].
  intros [H | H].
  - injection H as -> ->. lia.
  - specialize (IH H). lia.
Qed.

Lemma next_id_fresh {A : Type} (m : gmap Z A) : m !! next_id m = None.
Proof.
  destruct (m !! next_id m) as [v |] eqn:H; [| reflexivity].
  apply elem_of_map_to_list, list_elem_of_In in H.
  apply max_key_bound in H. unfold next_id in H. lia.
Qed.

Lemma next_id_positive {A : Type} (m : gmap Z A) : (1 <= next_id m)%Z.
Proof.
  unfold next_id.
  assert (H : (0 <= foldr (fun kv acc => Z.max (fst kv) acc) 0 (map_to_list m))%Z).
  { induction (map_to_list m) as [| kv l IH]; simpl; lia. }
  lia.
Qed.

(** ** What a request can do to the table of trades *)

Lemma perform_table_step (uid : Z) (a : Action) (w : World) :
  table_step uid (trade_table w) (trade_table (snd (perform uid a w))).
Proof.
  destruct a as [now req | tid req | tid]; simpl.
  - unfold new_trade. destruct (validate_on_submit req) eqn:Hv;
      [| apply step_none].
    apply validate_on_submit_true in Hv as [_ Hv].
    destruct (build_trade_from_form (next_id (trade_table w)) uid now
                (form_data req) Hv) as (t & Ht & Hf & Hi & Hu & _).
    rewrite Ht. simpl. apply step_add; auto using next_id_fresh.
  - unfold edit_trade. destruct (trade_table w !! tid) as [t |] eqn:Ht;
      [| apply step_none].
    destruct (user_id t =? uid)%Z eqn:Hu; simpl; [| apply step_none].
    apply Z.eqb_eq in Hu.
    destruct (validate_on_submit req) eqn:Hv; [| apply step_none].
    apply validate_on_submit_true in Hv as [_ Hv].
    destruct (populate_obj_from_form (form_data req) t Hv)
      as (t' & Ht' & Hf & Hi & Hu' & Hts).
    rewrite Ht'. simpl. apply (step_update uid _ tid t t'); congruence.
  - unfold delete_trade. destruct (trade_table w !! tid) as [t |] eqn:Ht;
      [| apply step_none].
    destruct (user_id t =? uid)%Z eqn:Hu; simpl; [| apply step_none].
    apply Z.eqb_eq in Hu. now apply (step_delete uid _ tid t).
Qed.

Lemma table_step_others (uid : Z) (m m' : gmap Z Trade) :
  table_step uid m m' ->
  forall k t, user_id t <> uid -> (m' !! k = Some t <-> m !! k = Some t).
Proof.
  intros Hs k t Hne.
  destruct Hs as [| t0 Hfresh Hu _ _ | k0 t0 t0' Hk Hu Hu' _ _ _ | k0 t0 Hk Hu].
  - reflexivity.
  - destruct (decide (k = next_id m)) as [-> | Hk].
    + rewrite lookup_insert_eq, Hfresh. split; [| discriminate].
      intros H. injection H as ->. contradiction.
    + now rewrite lookup_insert_ne.
  - destruct (decide (k = k0)) as [-> | Hkk].
    + rewrite lookup_insert_eq, Hk.
      split; intros H; injection H as ->; contradiction.
    + now rewrite lookup_insert_ne.
  - destruct (decide (k = k0)) as [-> | Hkk].
    + rewrite lookup_delete_eq, Hk. split; [discriminate |].
      intros H. injection H as ->. contradiction.
    + now rewrite lookup_delete_ne.
Qed.

(** X7. Whatever user [uid] asks for, creating, editing or deleting, the
    rows of every other user stay exactly as they are: none is changed, none
    is removed and none appears. *)
Theorem perform_keeps_other_users_rows (uid : Z) (a : Action) (w : World)
    (k : Z) (t : Trade) :
  user_id t <> uid ->
  (trade_table (snd (perform uid a w)) !! k = Some t <->
   trade_table w !! k = Some t).
Proof. apply table_step_others, perform_table_step. Qed.

Lemma perform_keeps_other_users_rows_witness :
  trade_table (snd (perform 1 (DeleteTrade 3) sample_world)) !! 3%Z
  = Some losing_trade <->
  trade_table sample_world !! 3%Z = Some losing_trade.
Proof.
  apply (perform_keeps_other_users_rows 1 (DeleteTrade 3) sample_world 3
           losing_trade).
  simpl. lia.
Defined.

(** X8. No request moves a row to another owner, to another primary key or
    to another time: a row found under a key before and after a request has
    kept its [user_id], its [id] and its [timestamp]. *)
Theorem perform_keeps_owner (uid : Z) (a : Action) (w : World) (k : Z)
    (t t' : Trade) :
  trade_table w !! k = Some t ->
  trade_table (snd (perform uid a w)) !! k = Some t' ->
  user_id t' = user_id t /\ id_ t' = id_ t /\ timestamp t' = timestamp t.
Proof.
  intros Ht Ht'. pose proof (perform_table_step uid a w) as Hs.
  destruct Hs as [| t0 Hfresh _ _ _ | k0 t0 t0' Hk Hu Hu' Hi Hts _ | k0 t0 Hk _].
  - assert (t' = t) by congruence. subst. tauto.
  - destruct (decide (k = next_id (trade_table w))) as [-> | Hk].
    + congruence.
    + rewrite lookup_insert_ne in Ht' by congruence.
      assert (t' = t) by congruence. subst. tauto.
  - destruct (decide (k = k0)) as [-> | Hkk].
    + rewrite lookup_insert_eq in Ht'.
      assert (t0' = t') by congruence. assert (t0 = t) by congruence.
      subst. repeat split; congruence.
    + rewrite lookup_insert_ne in Ht' by congruence.
      assert (t' = t) by congruence. subst. tauto.
  - destruct (decide (k = k0)) as [-> | Hkk].
    + rewrite lookup_delete_eq in Ht'. discriminate.
    + rewrite lookup_delete_ne in Ht' by congruence.
      assert (t' = t) by congruence. subst. tauto.
Qed.

Lemma perform_keeps_owner_witness :
  exists t',
    trade_table (snd (perform 1 (EditTrade 1 sample_post) sample_world)) !! 1%Z
    = Some t' /\
    user_id t' = user_id long_trade /\ id_ t' = id_ long_trade /\
    timestamp t' = timestamp long_trade.
Proof.
  eexists. split; [reflexivity |].
  apply (perform_keeps_owner 1 (EditTrade 1 sample_post) sample_world 1);
    reflexivity.
Defined.

(** X9. If every row is stored under its own [id], it still is after any
    request. *)
Theorem perform_keyed_by_id (uid : Z) (a : Action) (w : World) :
  keyed_by_id (trade_table w) ->
  keyed_by_id (trade_table (snd (perform uid a w))).
Proof.
  intros Hinv. pose proof (perform_table_step uid a w) as Hs.
  destruct Hs as [| t0 Hfresh _ Hi _ | k0 t0 t0' Hk _ _ Hi _ _ | k0 t0 Hk _];
    intros k t Ht.
  - now apply Hinv.
  - destruct (decide (k = next_id (trade_table w))) as [-> | Hk].
    + rewrite lookup_insert_eq in Ht. congruence.
    + rewrite lookup_insert_ne in Ht by congruence. now apply Hinv.
  - destruct (decide (k = k0)) as [-> | Hkk].
    + rewrite lookup_insert_eq in Ht. injection Ht as <-.
      rewrite Hi. now apply Hinv.
    + rewrite lookup_insert_ne in Ht by congruence. now apply Hinv.
  - destruct (decide (k = k0)) as [-> | Hkk].
    + rewrite lookup_delete_eq in Ht. discriminate.
    + rewrite lookup_delete_ne in Ht by congruence. now apply Hinv.
Qed.

Lemma sample_world_keyed : keyed_by_id (trade_table sample_world).
Proof.
  intros k t Ht. unfold sample_world in Ht. simpl in Ht.
  apply lookup_insert_Some in Ht as [[<- <-] | [_ Ht]]; [reflexivity |].
  apply lookup_insert_Some in Ht as [[<- <-] | [_ Ht]]; [reflexivity |].
  apply lookup_insert_Some in Ht as [[<- <-] | [_ Ht]]; [reflexivity |].
  now rewrite lookup_empty in Ht.
Qed.

Lemma perform_keyed_by_id_witness :
  keyed_by_id
    (trade_table (snd (perform 1 (NewTrade 1700000400 sample_post) sample_world))).
Proof. apply perform_keyed_by_id, sample_world_keyed. Defined.





(** X11. Without a submitted form that validates (any GET request among
    them) neither [new_trade] nor [edit_trade] writes to the table of
    trades. *)
Theorem no_write_without_valid_form (now trade_id uid : Z) (req : Request)
    (w : World) :
  validate_on_submit req = false ->
  trade_table (snd (new_trade now uid req w)) = trade_table w /\
  trade_table (snd (edit_trade trade_id uid req w)) = trade_table w /\
  fst (new_trade now uid req w)
  = RenderTemplate "trade_form.html" (TradeFormContext None).
Proof.
  intros Hv. unfold new_trade, edit_trade. rewrite Hv.
  split; [reflexivity | split; [| reflexivity]].
  destruct (trade_table w !! trade_id) as [t |]; [| reflexivity].
  destruct (negb (user_id t =? uid)%Z); reflexivity.
Qed.

Lemma no_write_without_valid_form_witness :
  trade_table (snd (new_trade 0 1 {| method := GET; form_data := sample_form |}
                      sample_world)) = trade_table sample_world /\
  trade_table (snd (edit_trade 1 1 {| method := GET; form_data := sample_form |}
                      sample_world)) = trade_table sample_world /\
  fst (new_trade 0 1 {| method := GET; form_data := sample_form |} sample_world)
  = RenderTemplate "trade_form.html" (TradeFormContext None).
Proof. apply no_write_without_valid_form. reflexivity. Defined.



(** X13. Creating a trade and deleting it again, as the same user, gives
    back the table of trades as it was. *)
Theorem new_then_delete (now uid : Z) (req : Request) (w : World) :
  let w1 := snd (new_trade now uid req w) in
  trade_table (snd (delete_trade (next_id (trade_table w)) uid w1))
  = trade_table w.
Proof.
  simpl. unfold new_trade.
  destruct (validate_on_submit req) eqn:Hv.
  - apply validate_on_submit_true in Hv as [_ Hf].
    destruct (build_trade_from_form (next_id (trade_table w)) uid now
                (form_data req) Hf) as (t & Ht & _ & _ & Hu & _).
    rewrite Ht. unfold delete_trade. simpl.
    rewrite lookup_insert_eq, Hu, Z.eqb_refl. simpl.
    rewrite delete_insert_eq. apply delete_id, next_id_fresh.
  - unfold delete_trade. simpl. now rewrite next_id_fresh.
Qed.

(** ** The trades on the dashboard *)

Lemma insert_desc_perm (t : Trade) (l : list Trade) :
  Permutation (insert_desc t l) (t :: l).
Proof.
  induction l as [| u l IH]; simpl; [reflexivity |].
  destruct (timestamp u <=? timestamp t)%Z; [reflexivity |].
  rewrite IH. apply perm_swap.
Qed.

Lemma order_by_perm (l : list Trade) :
  Permutation (order_by_timestamp_desc l) l.
Proof.
  induction l as [| t l IH]; simpl; [reflexivity |].
  rewrite insert_desc_perm. now apply perm_skip.
Qed.

Lemma insert_desc_sorted (t : Trade) (l : list Trade) :
  newest_first l -> newest_first (insert_desc t l).
Proof.
  unfold newest_first. induction 1 as [| u l Hs IH Hu]; simpl.
  - repeat constructor.
  - destruct (timestamp u <=? timestamp t)%Z eqn:Hc.
    + apply Z.leb_le in Hc. constructor; [now constructor |].
      constructor; [assumption |].
      eapply Forall_impl; [exact Hu |]. simpl. intros b Hb. lia.
    + apply Z.leb_gt in Hc. constructor; [assumption |].
      rewrite insert_desc_perm. constructor; [lia | assumption].
Qed.

Lemma order_by_sorted (l : list Trade) :
  newest_first (order_by_timestamp_desc l).
Proof.
  induction l as [| t l IH]; simpl; [constructor |].
  now apply insert_desc_sorted.
Qed.

(** The rows of a user, in the order of the table. *)
Lemma query_trades_perm (uid : Z) (w : World) :
  Permutation (query_trades uid w)
    (List.filter (fun t => (user_id t =? uid)%Z)
       (map snd (map_to_list (trade_table w)))).
Proof. apply order_by_perm. Qed.


Lemma filter_map_snd {K A : Type} (f : A -> bool) (l : list (K * A)) :
  List.filter f (map snd l) = map snd (List.filter (fun kv => f (snd kv)) l).
Proof.
  induction l as [| [k v] l IH]; simpl; [reflexivity |].
  destruct (f v); simpl; now rewrite IH.
Qed.

(** Two tables with the same rows of user [uid] give the same dashboard
    list, up to the order of the rows. *)
Lemma same_rows_perm (uid : Z) (m m' : gmap Z Trade) :
  (forall k t, user_id t = uid -> (m' !! k = Some t <-> m !! k = Some t)) ->
  Permutation
    (List.filter (fun t => (user_id t =? uid)%Z) (map snd (map_to_list m')))
    (List.filter (fun t => (user_id t =? uid)%Z) (map snd (map_to_list m))).
Proof.
  intros H. rewrite !filter_map_snd. apply Permutation_map.
  apply Stdlib.Sorting.Permutation.NoDup_Permutation.
  - apply List.NoDup_filter, NoDup_ListNoDup, NoDup_map_to_list.
  - apply List.NoDup_filter, NoDup_ListNoDup, NoDup_map_to_list.
  - intros [k t]. rewrite !filter_In, <- !list_elem_of_In, !elem_of_map_to_list.
    simpl. rewrite Z.eqb_eq. split; intros [Hk Hu]; (split; [| assumption]);
      now apply H.
Qed.

(** X14. The dashboard of a user lists exactly the stored rows whose
    [user_id] is that user's: nothing of another user and nothing that is
    not in the table is shown, and no row of the user is left out. *)
Theorem query_trades_content (uid : Z) (w : World) (t : Trade) :
  In t (query_trades uid w) <->
  user_id t = uid /\ exists k, trade_table w !! k = Some t.
Proof.
  assert (H : In t (query_trades uid w) <->
              In t (List.filter (fun t => (user_id t =? uid)%Z)
                      (map snd (map_to_list (trade_table w))))).
  { split; apply Permutation_in;
      [| symmetry]; apply query_trades_perm. }
  rewrite H, filter_In, Z.eqb_eq, in_map_iff. split.
  - intros [([k t'] & Hs & Hin) Hu]. simpl in Hs. subst t'.
    split; [assumption |]. exists k.
    now apply elem_of_map_to_list, list_elem_of_In.
  - intros [Hu [k Hk]]. split; [| assumption].
    exists (k, t). split; [reflexivity |].
    now apply list_elem_of_In, elem_of_map_to_list.
Qed.

(** X15. The dashboard lists the trades newest first: no trade comes
    before one with a later timestamp. *)
Theorem query_trades_newest_first (uid : Z) (w : World) :
  newest_first (query_trades uid w).
Proof. apply order_by_sorted. Qed.

(** X16. What one user does never shows on the dashboard of another: after
    any request of user [uid_b], the dashboard of a different user [uid_a]
    lists the same trades, and net profit, wins and losses are the same. *)
Theorem dashboard_isolated (uid_a uid_b : Z) (a : Action) (w : World) :
  uid_a <> uid_b ->
  let w' := snd (perform uid_b a w) in
  Permutation (query_trades uid_a w') (query_trades uid_a w) /\
  net_pl (query_trades uid_a w') = net_pl (query_trades uid_a w) /\
  win_count (query_trades uid_a w') = win_count (query_trades uid_a w) /\
  loss_count (query_trades uid_a w') = loss_count (query_trades uid_a w).
Proof.
  intros Hne w'.
  assert (Hp : Permutation (query_trades uid_a w') (query_trades uid_a w)).
  { rewrite !query_trades_perm. apply same_rows_perm.
    intros k t Hu. apply table_step_others with (uid := uid_b).
    - apply perform_table_step.
    - congruence. }
  split; [assumption |].
  split; [now apply net_pl_perm |].
  split; now apply length_filter_perm.
Qed.

Lemma dashboard_isolated_witness :
  Permutation (query_trades 1 (snd (perform 2 (DeleteTrade 3) sample_world)))
    (query_trades 1 sample_world) /\
  net_pl (query_trades 1 (snd (perform 2 (DeleteTrade 3) sample_world)))
  = net_pl (query_trades 1 sample_world) /\
  win_count (query_trades 1 (snd (perform 2 (DeleteTrade 3) sample_world)))
  = win_count (query_trades 1 sample_world) /\
  loss_count (query_trades 1 (snd (perform 2 (DeleteTrade 3) sample_world)))
  = loss_count (query_trades 1 sample_world).
Proof. apply (dashboard_isolated 1 2 (DeleteTrade 3) sample_world). lia. Defined.





(** ** Registration, login and logout *)

Lemma first_by_username_Some (name : string) (users : gmap Z User) (u : User) :
  first_by_username name users = Some u ->
  username u = name /\ exists k, users !! k = Some u.
Proof.
  unfold first_by_username. intros H. apply find_some in H as [Hin Hn].
  apply String.eqb_eq in Hn. split; [assumption |].
  apply in_map_iff in Hin as ([k u'] & Hs & Hin). simpl in Hs. subst u'.
  exists k. now apply elem_of_map_to_list, list_elem_of_In.
Qed.

Lemma first_by_username_None (name : string) (users : gmap Z User) :
  first_by_username name users = None ->
  forall k u, users !! k = Some u -> username u <> name.
Proof.
  unfold first_by_username. intros H k u Hk Hn.
  assert (Hin : In u (map snd (map_to_list users))).
  { apply in_map_iff. exists (k, u). split; [reflexivity |].
    now apply list_elem_of_In, elem_of_map_to_list. }
  pose proof (find_none _ _ H u Hin) as Hf. simpl in Hf.
  apply String.eqb_neq in Hf. contradiction.
Qed.

Lemma first_by_username_found (name : string) (users : gmap Z User) (k : Z)
    (u : User) :
  users !! k = Some u -> username u = name ->
  exists u', first_by_username name users = Some u'.
Proof.
  intros Hk Hn. destruct (first_by_username name users) as [u' |] eqn:H.
  - now exists u'.
  - exfalso. exact (first_by_username_None name users H k u Hk Hn).
Qed.

Lemma register_cases (h : Hasher) (req : RegisterRequest) (s : Site) :
  let s' := snd (register h req s) in
  trade_table (world s') = trade_table (world s) /\
  current_user s' = current_user s /\
  (user_table s' = user_table s \/
   (first_by_username (rf_username (reg_form req)) (user_table s) = None /\
    user_table s'
    = <[next_id (user_table s) := new_user h req s]> (user_table s))).
Proof.
  simpl. unfold register.
  destruct (is_authenticated s); [simpl; tauto |].
  destruct (reg_method req); [simpl; tauto |].
  destruct (validate_registration (reg_form req)); [| simpl; tauto].
  destruct (first_by_username _ _) eqn:Hf; simpl; [tauto |].
  split; [reflexivity | split; [reflexivity |]]. right. tauto.
Qed.

(** X19. Registration keeps user names unique: if no two users share a
    name, then no two do after any registration request. *)
Theorem register_keeps_unique (h : Hasher) (req : RegisterRequest) (s : Site) :
  unique_usernames (user_table s) ->
  unique_usernames (user_table (snd (register h req s))).
Proof.
  intros Hu.
  destruct (register_cases h req s) as (_ & _ & [-> | [Hnone ->]]);
    [assumption |].
  intros k1 k2 u1 u2 H1 H2 Hn.
  apply lookup_insert_Some in H1 as [[<- <-] | [Hk1 H1]];
    apply lookup_insert_Some in H2 as [[<- <-] | [Hk2 H2]].
  - reflexivity.
  - exfalso. apply (first_by_username_None _ _ Hnone k2 u2 H2).
    now rewrite <- Hn.
  - exfalso. now apply (first_by_username_None _ _ Hnone k1 u1 H1).
  - now apply (Hu k1 k2 u1 u2).
Qed.

Lemma sample_site_unique : unique_usernames (user_table sample_site).
Proof.
  intros k1 k2 u1 u2 H1 H2 _. simpl in H1, H2.
  apply lookup_singleton_Some in H1 as [<- _].
  now apply lookup_singleton_Some in H2 as [<- _].
Qed.

Lemma register_keeps_unique_witness :
  unique_usernames
    (user_table (snd (register toy_hasher register_bob sample_site))).
Proof. apply register_keeps_unique, sample_site_unique. Defined.

(** X20. Registration leaves what is there alone: every account that
    existed is still stored under its key with the same name and the same
    password hash, the table of trades is unchanged, and nobody is logged
    in by it. *)
Theorem register_keeps_accounts (h : Hasher) (req : RegisterRequest) (s : Site) :
  let s' := snd (register h req s) in
  (forall k u, user_table s !! k = Some u -> user_table s' !! k = Some u) /\
  trade_table (world s') = trade_table (world s) /\
  current_user s' = current_user s.
Proof.
  destruct (register_cases h req s) as (Hw & Hc & Hcases). simpl in *.
  split; [| split; assumption].
  intros k u Hk. destruct Hcases as [-> | [_ ->]]; [assumption |].
  rewrite lookup_insert_ne; [assumption |].
  intros <-. rewrite next_id_fresh in Hk. discriminate.
Qed.

(** X21. Nobody is logged in without the password: when a login request
    turns an anonymous session into the session of user [uid], a stored
    account with that [id] has the submitted name, and the submitted
    password checks against its hash.  Login changes neither the accounts
    nor the trades. *)
Theorem login_sound (h : Hasher) (req : LoginRequest) (s : Site) (uid : Z) :
  current_user s = None ->
  current_user (snd (login h req s)) = Some uid ->
  (exists k u,
      user_table s !! k = Some u /\ u_id u = uid /\
      username u = lf_username (login_form req) /\
      check_password h u (lf_password (login_form req)) = true) /\
  user_table (snd (login h req s)) = user_table s /\
  trade_table (world (snd (login h req s))) = trade_table (world s).
Proof.
  intros Hanon. unfold login, is_authenticated. rewrite Hanon.
  destruct (login_method req); simpl; [congruence |].
  destruct (validate_login (login_form req)); simpl; [| congruence].
  destruct (first_by_username _ _) as [u |] eqn:Hf; simpl; [| congruence].
  destruct (check_password h u _) eqn:Hc; simpl; [| congruence].
  intros Hu. injection Hu as Hu.
  apply first_by_username_Some in Hf as [Hn [k Hk]].
  split; [| split; reflexivity].
  exists k, u. tauto.
Qed.

Lemma login_sound_witness :
  (exists k u,
      user_table sample_site !! k = Some u /\ u_id u = 1%Z /\
      username u = lf_username (login_form login_alice) /\
      check_password toy_hasher u (lf_password (login_form login_alice)) = true) /\
  user_table (snd (login toy_hasher login_alice sample_site))
  = user_table sample_site /\
  trade_table (world (snd (login toy_hasher login_alice sample_site)))
  = trade_table (world sample_site).
Proof.
  apply (login_sound toy_hasher login_alice sample_site 1); reflexivity.
Defined.

(** X22. A name and password that were just registered log in: after a
    successful registration, a login request with the same name and password
    opens the session of the new user, provided the hash functions accept
    the password a hash was made from. *)
Theorem register_then_login (h : Hasher) (req : RegisterRequest)
    (lreq : LoginRequest) (s : Site) :
  hasher_sound h ->
  current_user s = None ->
  reg_method req = POST ->
  validate_registration (reg_form req) = true ->
  first_by_username (rf_username (reg_form req)) (user_table s) = None ->
  login_method lreq = POST ->
  lf_username (login_form lreq) = rf_username (reg_form req) ->
  lf_password (login_form lreq) = rf_password (reg_form req) ->
  let s1 := snd (register h req s) in
  fst (register h req s) = RedirectEndpoint "main.login" /\
  current_user (snd (login h lreq s1)) = Some (next_id (user_table s)) /\
  fst (login h lreq s1) = next_or_index (next_arg lreq).
Proof.
  intros Hh Hanon Hm Hv Hfree Hlm Hln Hlp.
  assert (Hreg : register h req s
                 = (RedirectEndpoint "main.login",
                    flash_site "Registration successful. Please log in."
                      "success" (commit_user (new_user h req s) s))).
  { unfold register, is_authenticated. now rewrite Hanon, Hm, Hv, Hfree. }
  simpl. rewrite Hreg. simpl. split; [reflexivity |].
  unfold login, is_authenticated. simpl. rewrite Hanon, Hlm.
  assert (Hvl : validate_login (login_form lreq) = true).
  { unfold validate_login. rewrite Hln, Hlp.
    unfold validate_registration in Hv. rewrite !andb_true_iff in Hv.
    apply andb_true_iff. tauto. }
  rewrite Hvl, Hln.
  set (users' := <[next_id (user_table s) := new_user h req s]> (user_table s)).
  assert (Hnew : users' !! next_id (user_table s) = Some (new_user h req s))
    by apply lookup_insert_eq.
  destruct (first_by_username_found (rf_username (reg_form req)) users'
              _ _ Hnew eq_refl) as [u Hu].
  rewrite Hu.
  assert (u = new_user h req s) as ->.
  { apply first_by_username_Some in Hu as [Hn [k Hk]].
    apply lookup_insert_Some in Hk as [[_ <-] | [_ Hk]]; [reflexivity |].
    exfalso. exact (first_by_username_None _ _ Hfree k u Hk Hn). }
  unfold check_password. simpl. rewrite Hlp, Hh. split; reflexivity.
Qed.

Lemma toy_hasher_sound : hasher_sound toy_hasher.
Proof.
  intros salt password. simpl.
  induction password as [| c p IH]; simpl.
  - destruct salt; reflexivity.
  - destruct (ascii_dec c c); [assumption | contradiction].
Qed.

Lemma register_then_login_witness :
  fst (register toy_hasher register_bob sample_site)
  = RedirectEndpoint "main.login" /\
  current_user
    (snd (login toy_hasher login_bob
            (snd (register toy_hasher register_bob sample_site))))
  = Some (next_id (user_table sample_site)) /\
  fst (login toy_hasher login_bob
         (snd (register toy_hasher register_bob sample_site)))
  = next_or_index (next_arg login_bob).
Proof.
  apply (register_then_login toy_hasher register_bob login_bob sample_site);
    try reflexivity.
  apply toy_hasher_sound.
Defined.

(** X23. A login that succeeds sends the browser to the [next] argument of
    the request whenever that is not empty, whatever it says, and to the
    dashboard otherwise. *)
Theorem login_redirects_to_next (h : Hasher) (req : LoginRequest) (s : Site)
    (u : User) :
  current_user s = None ->
  login_method req = POST ->
  validate_login (login_form req) = true ->
  first_by_username (lf_username (login_form req)) (user_table s) = Some u ->
  check_password h u (lf_password (login_form req)) = true ->
  snd (login h req s) = login_user u s /\
  (forall c url, next_arg req = Some (String c url) ->
                 fst (login h req s) = RedirectUrl (String c url)) /\
  (next_arg req = None \/ next_arg req = Some ""%string ->
   fst (login h req s) = RedirectEndpoint "main.index").
Proof.
  intros Hanon Hm Hv Hf Hc. unfold login, is_authenticated.
  rewrite Hanon, Hm, Hv, Hf, Hc. simpl.
  split; [reflexivity | split].
  - intros c url ->. reflexivity.
  - intros [-> | ->]; reflexivity.
Qed.

Lemma login_redirects_to_next_witness :
  fst (login toy_hasher login_alice_elsewhere sample_site)
  = RedirectUrl "http://elsewhere.example/".
Proof.
  apply (proj1 (proj2 (login_redirects_to_next toy_hasher login_alice_elsewhere
                         sample_site alice eq_refl eq_refl eq_refl eq_refl
                         eq_refl))
           "h"%char "ttp://elsewhere.example/"%string).
  reflexivity.
Defined.

(** X24. A submitted login that fails is answered in one way only: the
    login page again with the message ['Invalid username or password'],
    whether the name is unknown or the password wrong, and nothing else
    changes. *)
Theorem login_failure_uniform (h : Hasher) (req : LoginRequest) (s : Site) :
  current_user s = None ->
  login_method req = POST ->
  validate_login (login_form req) = true ->
  current_user (snd (login h req s)) = None ->
  login h req s
  = (RenderPage "login.html",
     flash_site "Invalid username or password" "danger" s).
Proof.
  intros Hanon Hm Hv. unfold login, is_authenticated.
  rewrite Hanon, Hm, Hv.
  destruct (first_by_username _ _) as [u |]; [| reflexivity].
  destruct (check_password h u _); [discriminate | reflexivity].
Qed.

Lemma login_failure_uniform_witness :
  login toy_hasher login_alice_wrong sample_site
  = (RenderPage "login.html",
     flash_site "Invalid username or password" "danger" sample_site) /\
  login toy_hasher login_bob sample_site
  = (RenderPage "login.html",
     flash_site "Invalid username or password" "danger" sample_site).
Proof.
  split.
  - apply (login_failure_uniform toy_hasher login_alice_wrong sample_site);
      reflexivity.
  - apply (login_failure_uniform toy_hasher login_bob sample_site);
      reflexivity.
Defined.


(** ** Editing and deleting, seen from the dashboard *)




